(** * Levenspiel plots for reactors in series

    A shallow embedding of [04 - Reactores Químicos/levenspiel.py]: the
    [Kinetics] dictionary of inverse-rate lambdas and the [plot] function
    that sizes three reactors in series (each a CSTR or a PFR) from three
    conversion checkpoints.

    The lambdas of the source are duck-typed: the same three expressions
    run on Python floats and on numpy arrays.  They are embedded once, over
    a class [Scalar] of numbers, with two instances: binary64 floats, the
    numbers the interpreter computes with, and the real numbers, the
    arithmetic the sizing formulas are stated in.  Which inputs make the
    interpreter raise is read off the binary64 instance or proved for every
    instance, never off the real numbers, where nothing overflows and no
    product underflows.  [scipy.integrate.quad] and the C library's [pow]
    belong to libraries outside the repository and are parameters of the
    development. *)

From Stdlib Require Import Reals Lra PrimFloat FunctionalExtensionality.
From stdpp Require Import gmap strings.

Set Warnings "-inexact-float".

(** ** Exceptions and results *)

(** The exceptions the code can raise: a missing key of [Kinetics], a float
    division by zero, and an overflow of the float power operator. *)
Inductive exn : Type :=
  | KeyError (key : string)
  | ZeroDivisionError
  | OverflowError.

Inductive result (A : Type) : Type :=
  | Ok (a : A)
  | Err (e : exn).
Arguments Ok {A} a.
Arguments Err {A} e.

#[global] Instance result_ret : MRet result := fun A a => Ok a.
#[global] Instance result_bind : MBind result := fun A B f m =>
  match m with
  | Ok a => f a
  | Err e => Err e
  end.

(** ** Numbers *)

(** The operations and literals the source applies to its numbers.  Python's
    [/] and [**] can raise, so they return a [result]; [+], [-] and [*] on
    floats never do. *)
Class Scalar (F : Type) : Type := {
  lit_0 : F;                       (* 0 *)
  lit_1 : F;                       (* 1 and 1.0 *)
  lit_0_5 : F;                     (* 0.5 *)
  lit_1_2 : F;                     (* 1.2 *)
  lit_0_4 : F;                     (* 0.4 *)
  lit_0_8 : F;                     (* 0.8 *)
  lit_0_9 : F;                     (* 0.9 *)
  fadd : F -> F -> F;
  fsub : F -> F -> F;
  fmul : F -> F -> F;
  fdiv : F -> F -> result F;       (* a / b *)
  fsqr : F -> result F;            (* a ** 2 *)
}.

Declare Scope py_scope.
Delimit Scope py_scope with py.
Notation "a + b" := (fadd a b) : py_scope.
Notation "a - b" := (fsub a b) : py_scope.
Notation "a * b" := (fmul a b) : py_scope.

(** Binary64.  [float_div] raises when the divisor compares equal to zero
    (either sign).  The interpreter computes [x ** 2] with the C library's
    [pow], whose answer need not be the correctly rounded square, so the
    power is a parameter of the instance. *)
Definition float_div (a b : float) : result float :=
  if PrimFloat.eqb b 0%float then Err ZeroDivisionError
  else Ok (PrimFloat.div a b).

Definition binary64 (float_pow2 : float -> result float) : Scalar float := {|
  lit_0 := 0%float;
  lit_1 := 1%float;
  lit_0_5 := 0.5%float;
  lit_1_2 := 1.2%float;
  lit_0_4 := 0.4%float;
  lit_0_8 := 0.8%float;
  lit_0_9 := 0.9%float;
  fadd := PrimFloat.add;
  fsub := PrimFloat.sub;
  fmul := PrimFloat.mul;
  fdiv := float_div;
  fsqr := float_pow2;
|}.

(** A stand-in for the power where a closed run needs one: the correctly
    rounded square, raising when a finite base overflows.  The C library
    may differ from it in the last place; the binary64 runs of this file
    are first-order and never reach it ([first_order_run_ignores_power]). *)
Definition float_sqr (a : float) : result float :=
  let r := PrimFloat.mul a a in
  if PrimFloat.is_infinity r && negb (PrimFloat.is_infinity a)
  then Err OverflowError else Ok r.

#[global] Instance float_Scalar : Scalar float := binary64 float_sqr.

(** Real numbers: a literal is the fraction it denotes, division by zero
    still raises, nothing overflows and no product underflows.  This is
    the instance of the formulas; it does not tell which binary64 inputs
    raise. *)
Definition real_div (a b : R) : result R :=
  if Req_dec_T b 0%R then Err ZeroDivisionError else Ok (a / b)%R.

#[global] Instance real_Scalar : Scalar R := {|
  lit_0 := 0%R;
  lit_1 := 1%R;
  lit_0_5 := (5 / 10)%R;
  lit_1_2 := (12 / 10)%R;
  lit_0_4 := (4 / 10)%R;
  lit_0_8 := (8 / 10)%R;
  lit_0_9 := (9 / 10)%R;
  fadd := Rplus;
  fsub := Rminus;
  fmul := Rmult;
  fdiv := real_div;
  fsqr := fun a => Ok (a * a)%R;
|}.

(** ** The kinetics dictionary *)

Section Kinetics.
Context {F : Type} `{Scalar F}.
Local Open Scope py_scope.

(** [lambda x, k, cA0: 1/(k*cA0*(1-x))] *)
Definition first_order (x k cA0 : F) : result F :=
  fdiv lit_1 (k * cA0 * (lit_1 - x)).

(** [lambda x, k, cA0: 1/(k*cA0**2*(1-x)**2)] *)
Definition second_order (x k cA0 : F) : result F :=
  c2 ← fsqr cA0;
  u2 ← fsqr (lit_1 - x);
  fdiv lit_1 (k * c2 * u2).

(** [lambda x, k, cA0: 1/(k*cA0*(1-x)/(0.5+1.2*k*cA0*(1-x))**2)] *)
Definition langmuir_hinshelwood (x k cA0 : F) : result F :=
  d ← fsqr (lit_0_5 + lit_1_2 * k * cA0 * (lit_1 - x));
  q ← fdiv (k * cA0 * (lit_1 - x)) d;
  fdiv lit_1 q.

(** The dictionary after the three assignments of lines 7 to 9. *)
Definition Kinetics : gmap string (F -> F -> F -> result F) :=
  <["Langmuir-Hinshelwood" := langmuir_hinshelwood]>
    (<["2º Orden" := second_order]>
       (<["1er Orden" := first_order]> ∅)).

(** [d[key]]: a missing key raises [KeyError]. *)
Definition getitem {V : Type} (d : gmap string V) (key : string) : result V :=
  match d !! key with
  | Some v => Ok v
  | None => Err (KeyError key)
  end.

(** The expression [Kinetics[kinetics](x, k, cA0)]. *)
Definition Kinetics_call (kinetics : string) (x k cA0 : F) : result F :=
  f ← getitem Kinetics kinetics;
  f x k cA0.
End Kinetics.

(** ** Effects of [plot] *)

(** What [plot] hands to its collaborators, in program order: the patches
    added to the axes and the lines printed.  A polygon is recorded by the
    bounds of its segment; its vertices are [(lo, 0)], one hundred samples
    of the curve over the segment and [(hi, 0)].  A printed line is recorded
    by its format string and the number formatted. *)
Inductive event (F : Type) : Type :=
  | add_patch_Rectangle (x y width height : F) (color : string)
  | add_patch_Polygon (lo hi : F) (color : string)
  | print (format : string) (value : F).
Arguments add_patch_Rectangle {F} x y width height color.
Arguments add_patch_Polygon {F} lo hi color.
Arguments print {F} format value.

(** A run: the events emitted so far, and a value or the exception that
    stopped the run.  Events emitted before an exception stay emitted. *)
Record M (F A : Type) : Type := Run {
  events : list (event F);
  outcome : result A;
}.
Arguments Run {F A} events outcome.
Arguments events {F A} m.
Arguments outcome {F A} m.

#[global] Instance M_ret {F} : MRet (M F) := fun A a => Run [] (Ok a).
#[global] Instance M_bind {F} : MBind (M F) := fun A B f m =>
  match outcome m with
  | Ok a => Run (events m ++ events (f a)) (outcome (f a))
  | Err e => Run (events m) (Err e)
  end.

Definition lift {F A : Type} (r : result A) : M F A := Run [] r.
Definition emit {F : Type} (e : event F) : M F unit := Run [e] (Ok tt).

(** ** The reactor train *)

Section Plot.
Context {F : Type} `{Scalar F}.
Local Open Scope py_scope.

(** [integrate.quad(f, a, b)[0]]; an exception of the integrand leaves
    [quad] as it is. *)
Variable quad : (F -> result F) -> F -> F -> result F.

(** Lines 23 to 36. *)
Definition reactor1 (kinetics : string) (k X1 : F) (Reactor1 : string) : M F F :=
  if String.eqb Reactor1 "CSTR" then
    y1 ← lift (Kinetics_call kinetics X1 lit_1 k);
    let V1 := X1 * y1 in
    emit (add_patch_Rectangle lit_0 lit_0 X1 y1 "y");;
    emit (print "REACTOR1 CSTR Volume=%.3g L" V1);;
    mret V1
  else
    V1 ← lift (quad (fun x => Kinetics_call kinetics x lit_1 k) lit_0 X1);
    emit (add_patch_Polygon lit_0 X1 "y");;
    emit (print "REACTOR1 PFR Volume=%.3g L" V1);;
    mret V1.

(** Lines 38 to 51. *)
Definition reactor2 (kinetics : string) (k X1 X2 : F) (Reactor2 : string) : M F F :=
  if String.eqb Reactor2 "CSTR" then
    y2 ← lift (Kinetics_call kinetics X2 lit_1 k);
    let V2 := (X2 - X1) * y2 in
    emit (add_patch_Rectangle X1 lit_0 (X2 - X1) y2 "c");;
    emit (print "REACTOR2 CSTR Volume=%.3g L" V2);;
    mret V2
  else
    V2 ← lift (quad (fun x => Kinetics_call kinetics x lit_1 k) X1 X2);
    emit (add_patch_Polygon X1 X2 "c");;
    emit (print "REACTOR2 PFR Volume=%.3g L" V2);;
    mret V2.

(** Lines 53 to 66. *)
Definition reactor3 (kinetics : string) (k X2 X3 : F) (Reactor3 : string) : M F F :=
  if String.eqb Reactor3 "CSTR" then
    y3 ← lift (Kinetics_call kinetics X3 lit_1 k);
    let V3 := (X3 - X2) * y3 in
    emit (add_patch_Rectangle X2 lit_0 (X3 - X2) y3 "r");;
    emit (print "REACTOR3 CSTR Volume=%.3g L" V3);;
    mret V3
  else
    V3 ← lift (quad (fun x => Kinetics_call kinetics x lit_1 k) X2 X3);
    emit (add_patch_Polygon X2 X3 "r");;
    emit (print "REACTOR3 PFR Volume=%.3g L" V3);;
    mret V3.

(** [plot].  Of lines 14 to 21 the run keeps the one step that can stop
    it, the lookup of line 16: the curve is evaluated there on a numpy
    array, where a zero divisor gives an infinity and no exception.  The
    same holds for the samples of a polygon, which are taken after [quad]
    has returned. *)
Definition plot (kinetics : string) (k X1 X2 X3 : F)
    (Reactor1 Reactor2 Reactor3 : string) : M F unit :=
  _ ← lift (getitem (Kinetics (F := F)) kinetics);
  V1 ← reactor1 kinetics k X1 Reactor1;
  V2 ← reactor2 kinetics k X1 X2 Reactor2;
  V3 ← reactor3 kinetics k X2 X3 Reactor3;
  emit (print "TOTAL Volume=%.3g L" (V1 + V2 + V3)).

(** The per-segment rule in the words of the specification, over a
    resolved inverse-rate curve [g]: a CSTR takes the rectangle
    [(Xhi - Xlo) * g Xhi], a PFR the quadrature of [g] over the segment. *)
Definition spec_segment_volume (g : F -> result F) (Xlo Xhi : F)
    (Reactor : string) : result F :=
  if String.eqb Reactor "CSTR" then
    y ← g Xhi; mret ((Xhi - Xlo) * y)
  else quad g Xlo Xhi.
End Plot.

(** The midpoint rule, a one-point quadrature with which [plot] is run on
    concrete binary64 inputs. *)
Definition midpoint_quad (f : float -> result float) (a b : float) : result float :=
  y ← f (PrimFloat.div (PrimFloat.add a b) 2%float);
  mret (PrimFloat.mul (PrimFloat.sub b a) y).

(** A quadrature whose answer is fixed beforehand, for runs over the real
    numbers. *)
Definition constant_quad (V : R) (f : R -> result R) (a b : R) : result R :=
  Ok V.

(** A quadrature that answers from a table, by the upper bound of the
    segment: [V1] up to [b1], [V2] up to [b2], [V3] otherwise. *)
Definition table_quad (b1 b2 V1 V2 V3 : R) (f : R -> result R) (a b : R) :
    result R :=
  if Req_dec_T b b1 then Ok V1
  else if Req_dec_T b b2 then Ok V2
  else Ok V3.

(** [V] is the Riemann integral of [g] over [[a, b]]. *)
Definition exact_integral (g : R -> R) (a b V : R) : Prop :=
  exists pr : Riemann_integrable g a b, V = RiemannInt pr.

(** The runs of the three blocks over a segment [[Xlo, Xhi]], as a PFR
    whose quadrature answered [Vpfr] and as a CSTR under a curve of height
    [y] at [Xhi]: the PFR run draws the polygon of the segment and reports
    [Vpfr]; the CSTR run draws the rectangle and reports
    [(Xhi - Xlo) * y].  The first block is concerned when the segment
    starts at zero. *)
Definition segment_runs (quad : (R -> result R) -> R -> R -> result R)
    (kinetics : string) (k Xlo Xhi Vpfr y : R) : Prop :=
  (reactor2 quad kinetics k Xlo Xhi "PFR" =
   Run [add_patch_Polygon Xlo Xhi "c";
        print "REACTOR2 PFR Volume=%.3g L" Vpfr] (Ok Vpfr) /\
   reactor2 quad kinetics k Xlo Xhi "CSTR" =
   Run [add_patch_Rectangle Xlo 0%R (Xhi - Xlo)%R y "c";
        print "REACTOR2 CSTR Volume=%.3g L" ((Xhi - Xlo) * y)%R]
       (Ok ((Xhi - Xlo) * y)%R)) /\
  (reactor3 quad kinetics k Xlo Xhi "PFR" =
   Run [add_patch_Polygon Xlo Xhi "r";
        print "REACTOR3 PFR Volume=%.3g L" Vpfr] (Ok Vpfr) /\
   reactor3 quad kinetics k Xlo Xhi "CSTR" =
   Run [add_patch_Rectangle Xlo 0%R (Xhi - Xlo)%R y "r";
        print "REACTOR3 CSTR Volume=%.3g L" ((Xhi - Xlo) * y)%R]
       (Ok ((Xhi - Xlo) * y)%R)) /\
  (Xlo = 0%R ->
   reactor1 quad kinetics k Xhi "PFR" =
   Run [add_patch_Polygon 0%R Xhi "y";
        print "REACTOR1 PFR Volume=%.3g L" Vpfr] (Ok Vpfr) /\
   reactor1 quad kinetics k Xhi "CSTR" =
   Run [add_patch_Rectangle 0%R 0%R Xhi y "y";
        print "REACTOR1 CSTR Volume=%.3g L" ((Xhi - Xlo) * y)%R]
       (Ok ((Xhi - Xlo) * y)%R)).

(** For a segment [[Xlo, Xhi]] of a curve [g]: whenever the quadrature
    that the PFR branch calls, on the integrand
    [lambda x: Kinetics[kinetics](x, 1.0, k)] between [Xlo] and [Xhi],
    answers the integral of [g] over the segment, the blocks run as stated
    in [segment_runs], and the volume the CSTR run returns,
    [(Xhi - Xlo) * g Xhi], is at least the volume the PFR run returns. *)
Definition cstr_bounds_pfr (quad : (R -> result R) -> R -> R -> result R)
    (kinetics : string) (k Xlo Xhi : R) (g : R -> R) : Prop :=
  forall Vpfr,
    quad (fun x => Kinetics_call kinetics x 1%R k) Xlo Xhi = Ok Vpfr ->
    exact_integral g Xlo Xhi Vpfr ->
    segment_runs quad kinetics k Xlo Xhi Vpfr (g Xhi) /\
    (Vpfr <= (Xhi - Xlo) * g Xhi)%R.

(** A block keeps its patch and its report together: a block that raised
    has emitted nothing, and a block that returned [V] has emitted one patch
    followed by one printed line, whose number is [V]. *)
Definition reports_its_volume {F : Type} (m : M F F) : Prop :=
  match outcome m with
  | Ok V =>
      exists patch format,
        events m = [patch; print format V] /\
        forall format' V', patch <> print format' V'
  | Err _ => events m = []
  end.

(** The mirror of [cstr_bounds_pfr]: under the same hypothesis on the
    quadrature the blocks run as stated in [segment_runs], and the volume
    the CSTR run returns is at most the volume the PFR run returns. *)
Definition pfr_bounds_cstr (quad : (R -> result R) -> R -> R -> result R)
    (kinetics : string) (k Xlo Xhi : R) (g : R -> R) : Prop :=
  forall Vpfr,
    quad (fun x => Kinetics_call kinetics x 1%R k) Xlo Xhi = Ok Vpfr ->
    exact_integral g Xlo Xhi Vpfr ->
    segment_runs quad kinetics k Xlo Xhi Vpfr (g Xhi) /\
    ((Xhi - Xlo) * g Xhi <= Vpfr)%R.

(** * Properties *)

(** ** The dictionary and the three blocks, over any numbers *)

Section Generic.
Context {F : Type} `{Scalar F}.
Local Open Scope py_scope.
Variable quad : (F -> result F) -> F -> F -> result F.

Lemma Kinetics_first_order :
  (Kinetics (F := F)) !! "1er Orden" = Some first_order.
Proof. reflexivity. Qed.

Lemma Kinetics_second_order :
  (Kinetics (F := F)) !! "2º Orden" = Some second_order.
Proof. reflexivity. Qed.

Lemma Kinetics_langmuir_hinshelwood :
  (Kinetics (F := F)) !! "Langmuir-Hinshelwood" = Some langmuir_hinshelwood.
Proof. reflexivity. Qed.

(** The keys of the dictionary are the three names assigned. *)
Lemma Kinetics_keys (kinetics : string) :
  is_Some ((Kinetics (F := F)) !! kinetics) <->
  kinetics = "1er Orden" \/ kinetics = "2º Orden"
  \/ kinetics = "Langmuir-Hinshelwood".
Proof.
  unfold Kinetics. rewrite !lookup_insert_is_Some, lookup_empty.
  split.
  - intros [-> | [_ [-> | [_ [-> | [_ [? ?]]]]]]]; auto; discriminate.
  - intros [-> | [-> | ->]]; [right; split; [done|]; right; split; [done|] |
                              right; split; [done|] | ]; auto.
Qed.

Lemma Kinetics_call_registered kinetics f (x k cA0 : F) :
  Kinetics !! kinetics = Some f ->
  Kinetics_call kinetics x k cA0 = f x k cA0.
Proof. intros Hf. unfold Kinetics_call, getitem. now rewrite Hf. Qed.

Lemma Kinetics_call_missing kinetics (x k cA0 : F) :
  (Kinetics (F := F)) !! kinetics = None ->
  Kinetics_call kinetics x k cA0 = Err (KeyError kinetics).
Proof. intros Hf. unfold Kinetics_call, getitem. now rewrite Hf. Qed.

(** The rectangle branches. *)
Lemma reactor1_CSTR kinetics (k X1 y1 : F) :
  Kinetics_call kinetics X1 lit_1 k = Ok y1 ->
  reactor1 quad kinetics k X1 "CSTR" =
  Run [add_patch_Rectangle lit_0 lit_0 X1 y1 "y";
       print "REACTOR1 CSTR Volume=%.3g L" (X1 * y1)]
      (Ok (X1 * y1)).
Proof. intros Hy. unfold reactor1. simpl. now rewrite Hy. Qed.

Lemma reactor2_CSTR kinetics (k X1 X2 y2 : F) :
  Kinetics_call kinetics X2 lit_1 k = Ok y2 ->
  reactor2 quad kinetics k X1 X2 "CSTR" =
  Run [add_patch_Rectangle X1 lit_0 (X2 - X1) y2 "c";
       print "REACTOR2 CSTR Volume=%.3g L" ((X2 - X1) * y2)]
      (Ok ((X2 - X1) * y2)).
Proof. intros Hy. unfold reactor2. simpl. now rewrite Hy. Qed.

Lemma reactor3_CSTR kinetics (k X2 X3 y3 : F) :
  Kinetics_call kinetics X3 lit_1 k = Ok y3 ->
  reactor3 quad kinetics k X2 X3 "CSTR" =
  Run [add_patch_Rectangle X2 lit_0 (X3 - X2) y3 "r";
       print "REACTOR3 CSTR Volume=%.3g L" ((X3 - X2) * y3)]
      (Ok ((X3 - X2) * y3)).
Proof. intros Hy. unfold reactor3. simpl. now rewrite Hy. Qed.

(** The integration branches. *)
Lemma reactor1_not_CSTR kinetics (k X1 : F) Reactor1 :
  Reactor1 <> "CSTR" ->
  reactor1 quad kinetics k X1 Reactor1 =
  (V1 ← lift (quad (fun x => Kinetics_call kinetics x lit_1 k) lit_0 X1);
   emit (add_patch_Polygon lit_0 X1 "y");;
   emit (print "REACTOR1 PFR Volume=%.3g L" V1);;
   mret V1).
Proof.
  intros Hr. unfold reactor1.
  destruct (String.eqb_spec Reactor1 "CSTR"); [contradiction | reflexivity].
Qed.

Lemma reactor2_not_CSTR kinetics (k X1 X2 : F) Reactor2 :
  Reactor2 <> "CSTR" ->
  reactor2 quad kinetics k X1 X2 Reactor2 =
  (V2 ← lift (quad (fun x => Kinetics_call kinetics x lit_1 k) X1 X2);
   emit (add_patch_Polygon X1 X2 "c");;
   emit (print "REACTOR2 PFR Volume=%.3g L" V2);;
   mret V2).
Proof.
  intros Hr. unfold reactor2.
  destruct (String.eqb_spec Reactor2 "CSTR"); [contradiction | reflexivity].
Qed.

Lemma reactor3_not_CSTR kinetics (k X2 X3 : F) Reactor3 :
  Reactor3 <> "CSTR" ->
  reactor3 quad kinetics k X2 X3 Reactor3 =
  (V3 ← lift (quad (fun x => Kinetics_call kinetics x lit_1 k) X2 X3);
   emit (add_patch_Polygon X2 X3 "r");;
   emit (print "REACTOR3 PFR Volume=%.3g L" V3);;
   mret V3).
Proof.
  intros Hr. unfold reactor3.
  destruct (String.eqb_spec Reactor3 "CSTR"); [contradiction | reflexivity].
Qed.

(** [plot] runs the lookup and the three blocks in order, then prints the
    total of what the blocks returned. *)
Lemma plot_blocks kinetics f (k X1 X2 X3 : F) Reactor1 Reactor2 Reactor3 V1 V2 V3 :
  Kinetics !! kinetics = Some f ->
  outcome (reactor1 quad kinetics k X1 Reactor1) = Ok V1 ->
  outcome (reactor2 quad kinetics k X1 X2 Reactor2) = Ok V2 ->
  outcome (reactor3 quad kinetics k X2 X3 Reactor3) = Ok V3 ->
  plot quad kinetics k X1 X2 X3 Reactor1 Reactor2 Reactor3 =
  Run (events (reactor1 quad kinetics k X1 Reactor1)
       ++ events (reactor2 quad kinetics k X1 X2 Reactor2)
       ++ events (reactor3 quad kinetics k X2 X3 Reactor3)
       ++ [print "TOTAL Volume=%.3g L" (V1 + V2 + V3)])
      (Ok tt).
Proof.
  intros Hf H1 H2 H3. unfold plot, getitem. rewrite Hf.
  unfold mbind, M_bind, lift, emit. simpl.
  rewrite H1. simpl. rewrite H2. simpl. rewrite H3. reflexivity.
Qed.

(** C6. Additivity: whatever the checkpoints and the reactor types, when
    the three blocks return volumes [V1], [V2] and [V3], [plot] reports
    after the blocks' own reports the total [V1 + V2 + V3], the sum of
    the three volumes as the blocks computed them. *)
Theorem total_volume_is_sum kinetics (k X1 X2 X3 : F)
    Reactor1 Reactor2 Reactor3 V1 V2 V3 :
  is_Some ((Kinetics (F := F)) !! kinetics) ->
  outcome (reactor1 quad kinetics k X1 Reactor1) = Ok V1 ->
  outcome (reactor2 quad kinetics k X1 X2 Reactor2) = Ok V2 ->
  outcome (reactor3 quad kinetics k X2 X3 Reactor3) = Ok V3 ->
  let run := plot quad kinetics k X1 X2 X3 Reactor1 Reactor2 Reactor3 in
  outcome run = Ok tt /\
  exists reports,
    events run = reports ++ [print "TOTAL Volume=%.3g L" (V1 + V2 + V3)] /\
    reports = events (reactor1 quad kinetics k X1 Reactor1)
              ++ events (reactor2 quad kinetics k X1 X2 Reactor2)
              ++ events (reactor3 quad kinetics k X2 X3 Reactor3).
Proof.
  intros [f Hf] H1 H2 H3 run. subst run.
  rewrite (plot_blocks _ _ _ _ _ _ _ _ _ _ _ _ Hf H1 H2 H3). simpl.
  split; [reflexivity |].
  eexists. split; [| reflexivity]. now rewrite <- !app_assoc.
Qed.

(** C8, as the code has it. Checkpoints are not validated: with three
    CSTR segments, whenever the inverse rate is defined at the three
    checkpoints, [plot] returns and reports the volumes [X1 * g X1],
    [(X2 - X1) * g X2], [(X3 - X2) * g X3] and their sum, whatever the
    order of the checkpoints and wherever they lie. *)
Theorem plot_accepts_any_checkpoints kinetics (k X1 X2 X3 y1 y2 y3 : F) :
  Kinetics_call kinetics X1 lit_1 k = Ok y1 ->
  Kinetics_call kinetics X2 lit_1 k = Ok y2 ->
  Kinetics_call kinetics X3 lit_1 k = Ok y3 ->
  plot quad kinetics k X1 X2 X3 "CSTR" "CSTR" "CSTR" =
  Run [add_patch_Rectangle lit_0 lit_0 X1 y1 "y";
       print "REACTOR1 CSTR Volume=%.3g L" (X1 * y1);
       add_patch_Rectangle X1 lit_0 (X2 - X1) y2 "c";
       print "REACTOR2 CSTR Volume=%.3g L" ((X2 - X1) * y2);
       add_patch_Rectangle X2 lit_0 (X3 - X2) y3 "r";
       print "REACTOR3 CSTR Volume=%.3g L" ((X3 - X2) * y3);
       print "TOTAL Volume=%.3g L" (X1 * y1 + (X2 - X1) * y2 + (X3 - X2) * y3)]
      (Ok tt).
Proof.
  intros H1 H2 H3.
  assert (exists f, (Kinetics (F := F)) !! kinetics = Some f) as [f Hf].
  { unfold Kinetics_call, getitem in H1.
    destruct (Kinetics !! kinetics) as [f|]; [now exists f | discriminate]. }
  rewrite (plot_blocks kinetics f k X1 X2 X3 _ _ _
             (X1 * y1) ((X2 - X1) * y2) ((X3 - X2) * y3) Hf).
  - now rewrite (reactor1_CSTR _ _ _ _ H1), (reactor2_CSTR _ _ _ _ _ H2),
      (reactor3_CSTR _ _ _ _ _ H3).
  - now rewrite (reactor1_CSTR _ _ _ _ H1).
  - now rewrite (reactor2_CSTR _ _ _ _ _ H2).
  - now rewrite (reactor3_CSTR _ _ _ _ _ H3).
Qed.

(** C9. A rate-law name that is not a key of [Kinetics] stops [plot] at
    its first lookup with [KeyError]: nothing has been drawn or printed,
    no segment volume and no total. *)
Theorem plot_unknown_rate_law kinetics (k X1 X2 X3 : F)
    Reactor1 Reactor2 Reactor3 :
  (Kinetics (F := F)) !! kinetics = None ->
  plot quad kinetics k X1 X2 X3 Reactor1 Reactor2 Reactor3 =
  Run [] (Err (KeyError kinetics)).
Proof. intros Hf. unfold plot, getitem. now rewrite Hf. Qed.

(** C10. A reactor type other than the string [CSTR] takes, in each of
    the three blocks, the integration branch: the volume is what [quad]
    returns for the inverse-rate curve over the segment, reported under
    the tag PFR. The blocks have no third case, so no reactor type is
    rejected. *)
Theorem reactor_type_other_than_CSTR_is_PFR kinetics (k Xlo Xhi : F) Reactor :
  Reactor <> "CSTR" ->
  let g := fun x => Kinetics_call kinetics x lit_1 k in
  reactor1 quad kinetics k Xhi Reactor =
    (V ← lift (quad g lit_0 Xhi);
     emit (add_patch_Polygon lit_0 Xhi "y");;
     emit (print "REACTOR1 PFR Volume=%.3g L" V);;
     mret V) /\
  reactor2 quad kinetics k Xlo Xhi Reactor =
    (V ← lift (quad g Xlo Xhi);
     emit (add_patch_Polygon Xlo Xhi "c");;
     emit (print "REACTOR2 PFR Volume=%.3g L" V);;
     mret V) /\
  reactor3 quad kinetics k Xlo Xhi Reactor =
    (V ← lift (quad g Xlo Xhi);
     emit (add_patch_Polygon Xlo Xhi "r");;
     emit (print "REACTOR3 PFR Volume=%.3g L" V);;
     mret V) /\
  outcome (reactor1 quad kinetics k Xhi Reactor) = quad g lit_0 Xhi /\
  outcome (reactor2 quad kinetics k Xlo Xhi Reactor) = quad g Xlo Xhi /\
  outcome (reactor3 quad kinetics k Xlo Xhi Reactor) = quad g Xlo Xhi.
Proof.
  intros Hr g.
  rewrite (reactor1_not_CSTR _ _ _ _ Hr), (reactor2_not_CSTR _ _ _ _ _ Hr),
    (reactor3_not_CSTR _ _ _ _ _ Hr).
  repeat split; unfold mbind, M_bind, lift; simpl;
    fold g; destruct (quad g _ _); reflexivity.
Qed.
End Generic.

(** ** Over the real numbers *)

Section Reals.
Local Open Scope R_scope.
Variable quad : (R -> result R) -> R -> R -> result R.

Lemma real_div_Ok (a b : R) : b <> 0 -> real_div a b = Ok (a / b).
Proof.
  intros Hb. unfold real_div.
  destruct (Req_dec_T b 0); [contradiction | reflexivity].
Qed.

Lemma real_div_0 (a : R) : real_div a 0 = Err ZeroDivisionError.
Proof.
  unfold real_div. destruct (Req_dec_T 0 0); [reflexivity | contradiction].
Qed.

(** The three lambdas on real arguments. *)
Lemma first_order_real (x k cA0 : R) :
  first_order x k cA0 = real_div 1 (k * cA0 * (1 - x)).
Proof. reflexivity. Qed.

Lemma second_order_real (x k cA0 : R) :
  second_order x k cA0 = real_div 1 (k * cA0 ^ 2 * (1 - x) ^ 2).
Proof.
  unfold second_order. cbn.
  replace (k * (cA0 * cA0) * ((1 - x) * (1 - x)))
    with (k * cA0 ^ 2 * (1 - x) ^ 2) by ring.
  reflexivity.
Qed.

Lemma langmuir_hinshelwood_real (x k cA0 : R) :
  langmuir_hinshelwood x k cA0 =
  (q ← real_div (k * cA0 * (1 - x))
         ((5 / 10 + 12 / 10 * k * cA0 * (1 - x)) ^ 2);
   real_div 1 q).
Proof.
  replace ((5 / 10 + 12 / 10 * k * cA0 * (1 - x)) ^ 2)
    with ((5 / 10 + 12 / 10 * k * cA0 * (1 - x))
          * (5 / 10 + 12 / 10 * k * cA0 * (1 - x))) by ring.
  reflexivity.
Qed.

(** C4. The dictionary maps the first-order name to
    [1/(k*cA0*(1-X))], the second-order name to [1/(k*cA0^2*(1-X)^2)] and
    the Langmuir-Hinshelwood name to
    [1/(k*cA0*(1-X)/(0.5+1.2*k*cA0*(1-X))^2)], functions of [X], [k] and
    [cA0] alone, wherever the divisors are not zero. *)
Theorem Kinetics_formulas (x k cA0 : R) :
  k <> 0 -> cA0 <> 0 -> x <> 1 ->
  Kinetics_call "1er Orden" x k cA0 = Ok (1 / (k * cA0 * (1 - x))) /\
  Kinetics_call "2º Orden" x k cA0 = Ok (1 / (k * cA0 ^ 2 * (1 - x) ^ 2)) /\
  (5 / 10 + 12 / 10 * k * cA0 * (1 - x) <> 0 ->
   Kinetics_call "Langmuir-Hinshelwood" x k cA0 =
   Ok (1 / (k * cA0 * (1 - x)
            / (5 / 10 + 12 / 10 * k * cA0 * (1 - x)) ^ 2))).
Proof.
  intros Hk Hc Hx.
  assert (Hu : 1 - x <> 0) by lra.
  assert (Hn : k * cA0 * (1 - x) <> 0) by (repeat apply Rmult_integral_contrapositive_currified; assumption).
  repeat split.
  - rewrite (Kinetics_call_registered _ _ _ _ _ Kinetics_first_order).
    rewrite first_order_real. now apply real_div_Ok.
  - rewrite (Kinetics_call_registered _ _ _ _ _ Kinetics_second_order).
    rewrite second_order_real. apply real_div_Ok.
    apply Rmult_integral_contrapositive_currified;
      [apply Rmult_integral_contrapositive_currified |];
      try apply pow_nonzero; assumption.
  - intros Hd.
    rewrite (Kinetics_call_registered _ _ _ _ _ Kinetics_langmuir_hinshelwood).
    rewrite langmuir_hinshelwood_real.
    assert (Hd2 : (5 / 10 + 12 / 10 * k * cA0 * (1 - x)) ^ 2 <> 0)
      by (apply pow_nonzero; assumption).
    rewrite (real_div_Ok _ _ Hd2). cbn.
    apply real_div_Ok.
    unfold Rdiv. apply Rmult_integral_contrapositive_currified;
      [assumption | now apply Rinv_neq_0_compat].
Qed.

(** C1. A block whose reactor type is CSTR returns and prints exactly
    [(Xhi - Xlo) * g Xhi], where [g X] is [Kinetics[kinetics](X, 1.0, k)]
    and [y] its value at [Xhi]: the first block over [[0, X1]], the second
    over [[X1, X2]], the third over [[X2, X3]]. *)
Theorem cstr_volume_closed_form kinetics (k Xlo Xhi y : R) :
  Kinetics_call kinetics Xhi 1 k = Ok y ->
  (Xlo = 0 ->
   reactor1 quad kinetics k Xhi "CSTR" =
   Run [add_patch_Rectangle 0 0 Xhi y "y";
        print "REACTOR1 CSTR Volume=%.3g L" ((Xhi - Xlo) * y)]
       (Ok ((Xhi - Xlo) * y))) /\
  reactor2 quad kinetics k Xlo Xhi "CSTR" =
  Run [add_patch_Rectangle Xlo 0 (Xhi - Xlo) y "c";
       print "REACTOR2 CSTR Volume=%.3g L" ((Xhi - Xlo) * y)]
      (Ok ((Xhi - Xlo) * y)) /\
  reactor3 quad kinetics k Xlo Xhi "CSTR" =
  Run [add_patch_Rectangle Xlo 0 (Xhi - Xlo) y "r";
       print "REACTOR3 CSTR Volume=%.3g L" ((Xhi - Xlo) * y)]
      (Ok ((Xhi - Xlo) * y)).
Proof.
  intros Hy. repeat split.
  - intros ->. rewrite (reactor1_CSTR quad kinetics k Xhi y Hy). cbn.
    replace ((Xhi - 0) * y) with (Xhi * y) by ring. reflexivity.
  - exact (reactor2_CSTR quad kinetics k Xlo Xhi y Hy).
  - exact (reactor3_CSTR quad kinetics k Xlo Xhi y Hy).
Qed.

(** Each block returns what the specification's segment rule gives for the
    curve [g X = Kinetics[kinetics](X, 1.0, k)]. *)
Lemma reactor1_spec kinetics (k X1 : R) Reactor1 :
  outcome (reactor1 quad kinetics k X1 Reactor1) =
  spec_segment_volume quad (fun X => Kinetics_call kinetics X 1 k) 0 X1 Reactor1.
Proof.
  unfold reactor1, spec_segment_volume.
  destruct (String.eqb Reactor1 "CSTR"); unfold mbind, M_bind, lift; cbn.
  - destruct (Kinetics_call kinetics X1 1 k) as [y|e]; cbn; [| reflexivity].
    unfold mret, result_ret. f_equal. ring.
  - now destruct (quad _ 0 X1).
Qed.

Lemma reactor2_spec kinetics (k X1 X2 : R) Reactor2 :
  outcome (reactor2 quad kinetics k X1 X2 Reactor2) =
  spec_segment_volume quad (fun X => Kinetics_call kinetics X 1 k) X1 X2 Reactor2.
Proof.
  unfold reactor2, spec_segment_volume.
  destruct (String.eqb Reactor2 "CSTR"); unfold mbind, M_bind, lift; cbn.
  - now destruct (Kinetics_call kinetics X2 1 k).
  - now destruct (quad _ X1 X2).
Qed.

Lemma reactor3_spec kinetics (k X2 X3 : R) Reactor3 :
  outcome (reactor3 quad kinetics k X2 X3 Reactor3) =
  spec_segment_volume quad (fun X => Kinetics_call kinetics X 1 k) X2 X3 Reactor3.
Proof.
  unfold reactor3, spec_segment_volume.
  destruct (String.eqb Reactor3 "CSTR"); unfold mbind, M_bind, lift; cbn.
  - now destruct (Kinetics_call kinetics X3 1 k).
  - now destruct (quad _ X2 X3).
Qed.

(** C5. Every evaluation of the selected lambda inside [plot] has 1.0 in
    the position of the rate constant and the caller's [k] in the position
    of [cA0]: each block returns the segment rule of the curve
    [X => Kinetics[kinetics](X, 1.0, k)].  So the second-order inverse rate
    is [1/(k^2*(1-X)^2)], with the caller's [k] squared, while the
    first-order and Langmuir-Hinshelwood lambdas give what they give for
    rate constant [k] and [cA0 = 1]. *)
Theorem plot_passes_k_as_cA0 kinetics (k Xlo Xhi x : R) Reactor :
  (outcome (reactor1 quad kinetics k Xhi Reactor) =
   spec_segment_volume quad (fun X => Kinetics_call kinetics X 1 k) 0 Xhi Reactor /\
   outcome (reactor2 quad kinetics k Xlo Xhi Reactor) =
   spec_segment_volume quad (fun X => Kinetics_call kinetics X 1 k) Xlo Xhi Reactor /\
   outcome (reactor3 quad kinetics k Xlo Xhi Reactor) =
   spec_segment_volume quad (fun X => Kinetics_call kinetics X 1 k) Xlo Xhi Reactor) /\
  Kinetics_call "2º Orden" x 1 k = real_div 1 (k ^ 2 * (1 - x) ^ 2) /\
  (k <> 0 -> x <> 1 ->
   Kinetics_call "2º Orden" x 1 k = Ok (1 / (k ^ 2 * (1 - x) ^ 2))) /\
  Kinetics_call "1er Orden" x 1 k = Kinetics_call "1er Orden" x k 1 /\
  Kinetics_call "Langmuir-Hinshelwood" x 1 k =
  Kinetics_call "Langmuir-Hinshelwood" x k 1.
Proof.
  assert (H2 : Kinetics_call "2º Orden" x 1 k = real_div 1 (k ^ 2 * (1 - x) ^ 2)).
  { rewrite (Kinetics_call_registered _ _ _ _ _ Kinetics_second_order).
    rewrite second_order_real. now rewrite Rmult_1_l. }
  split; [| split; [| split; [| split]]].
  - split; [apply reactor1_spec | split; [apply reactor2_spec | apply reactor3_spec]].
  - exact H2.
  - intros Hk Hx. rewrite H2. apply real_div_Ok.
    apply Rmult_integral_contrapositive_currified; apply pow_nonzero; lra.
  - rewrite !(Kinetics_call_registered _ _ _ _ _ Kinetics_first_order).
    rewrite !first_order_real. now rewrite Rmult_1_l, Rmult_1_r.
  - rewrite !(Kinetics_call_registered _ _ _ _ _ Kinetics_langmuir_hinshelwood).
    rewrite !langmuir_hinshelwood_real.
    now rewrite Rmult_1_l, !Rmult_1_r.
Qed.

(** *** Rectangle against area *)

(** Under a curve that does not decrease on [[a, b]], the area is at most
    the rectangle raised at the right edge. *)
Lemma integral_le_right_rectangle (g : R -> R) (a b : R)
    (pr : Riemann_integrable g a b) :
  a < b ->
  (forall x y, a <= x -> x <= y -> y <= b -> g x <= g y) ->
  RiemannInt pr <= (b - a) * g b.
Proof.
  intros Hab Hmono.
  rewrite Rmult_comm, <- (RiemannInt_P15 (RiemannInt_P14 a b (g b))).
  apply RiemannInt_P19; [lra |].
  intros x Hx. unfold fct_cte. apply Hmono; lra.
Qed.

(** What the blocks do over a segment, once the height of the curve at
    [Xhi] and the answer of the quadrature are known. *)
Lemma segment_runs_hold kinetics (k Xlo Xhi Vpfr y : R) :
  Kinetics_call kinetics Xhi 1 k = Ok y ->
  quad (fun x => Kinetics_call kinetics x 1 k) Xlo Xhi = Ok Vpfr ->
  segment_runs quad kinetics k Xlo Xhi Vpfr y.
Proof.
  intros Hy Q.
  assert (Hpfr : "PFR" <> "CSTR") by discriminate.
  unfold segment_runs. split; [split | split; [split |]].
  - rewrite (reactor2_not_CSTR quad kinetics k Xlo Xhi "PFR" Hpfr).
    unfold mbind, M_bind, lift, emit. cbn in Q |- *. now rewrite Q.
  - exact (reactor2_CSTR quad kinetics k Xlo Xhi y Hy).
  - rewrite (reactor3_not_CSTR quad kinetics k Xlo Xhi "PFR" Hpfr).
    unfold mbind, M_bind, lift, emit. cbn in Q |- *. now rewrite Q.
  - exact (reactor3_CSTR quad kinetics k Xlo Xhi y Hy).
  - intros ->. split.
    + rewrite (reactor1_not_CSTR quad kinetics k Xhi "PFR" Hpfr).
      unfold mbind, M_bind, lift, emit. cbn in Q |- *. now rewrite Q.
    + rewrite (reactor1_CSTR quad kinetics k Xhi y Hy). cbn.
      replace ((Xhi - 0) * y) with (Xhi * y) by ring. reflexivity.
Qed.

Lemma cstr_bounds_pfr_monotone kinetics (k Xlo Xhi : R) (g : R -> R) :
  Xlo < Xhi ->
  (forall x, Xlo <= x <= Xhi -> Kinetics_call kinetics x 1 k = Ok (g x)) ->
  (forall x y, Xlo <= x -> x <= y -> y <= Xhi -> g x <= g y) ->
  cstr_bounds_pfr quad kinetics k Xlo Xhi g.
Proof.
  intros Hlt Hg Hmono Vpfr Q [pr ->].
  split.
  - apply segment_runs_hold; [apply Hg; lra | exact Q].
  - now apply integral_le_right_rectangle.
Qed.

(** The first-order curve as [plot] evaluates it, below conversion one. *)
Lemma first_order_curve (k x : R) :
  k <> 0 -> x < 1 ->
  Kinetics_call "1er Orden" x 1 k = Ok (1 / (k * (1 - x))).
Proof.
  intros Hk Hx.
  rewrite (Kinetics_call_registered _ _ _ _ _ Kinetics_first_order).
  rewrite first_order_real, Rmult_1_l. apply real_div_Ok.
  apply Rmult_integral_contrapositive_currified; lra.
Qed.

Lemma first_order_curve_increasing (k x y : R) :
  0 < k -> x <= y -> y < 1 -> 1 / (k * (1 - x)) <= 1 / (k * (1 - y)).
Proof.
  intros Hk Hxy Hy. unfold Rdiv. rewrite !Rmult_1_l.
  apply Rinv_le_contravar; nra.
Qed.

(** The second-order curve as [plot] evaluates it, below conversion one. *)
Lemma second_order_curve (k x : R) :
  k <> 0 -> x < 1 ->
  Kinetics_call "2º Orden" x 1 k = Ok (1 / (k ^ 2 * (1 - x) ^ 2)).
Proof.
  intros Hk Hx.
  rewrite (Kinetics_call_registered _ _ _ _ _ Kinetics_second_order).
  rewrite second_order_real, Rmult_1_l. apply real_div_Ok.
  apply Rmult_integral_contrapositive_currified; apply pow_nonzero; lra.
Qed.

Lemma second_order_curve_increasing (k x y : R) :
  k <> 0 -> x <= y -> y < 1 ->
  1 / (k ^ 2 * (1 - x) ^ 2) <= 1 / (k ^ 2 * (1 - y) ^ 2).
Proof.
  intros Hk Hxy Hy. unfold Rdiv. rewrite !Rmult_1_l.
  assert (0 < k ^ 2) by (destruct (Rdichotomy k 0 Hk); nra).
  assert (0 < (1 - y) ^ 2) by (apply pow_lt; lra).
  assert ((1 - y) ^ 2 <= (1 - x) ^ 2) by (apply pow_incr; lra).
  apply Rinv_le_contravar; nra.
Qed.

(** C7. On a segment [[Xlo, Xhi]] with [Xlo < Xhi < 1], for any rate law
    whose inverse-rate curve does not decrease on the segment, the CSTR
    volume [(Xhi - Xlo) * g Xhi] is at least the PFR volume, the integral
    of [g] over the segment: when the quadrature the PFR branch calls
    answers that integral, the block run as a PFR returns it and the block
    run as a CSTR returns no less.  The first-order curve (for a positive
    [k]) and the second-order curve are such curves. *)
Theorem cstr_volume_at_least_pfr_volume (k Xlo Xhi : R) :
  Xlo < Xhi -> Xhi < 1 ->
  (forall kinetics (g : R -> R),
      (forall x, Xlo <= x <= Xhi -> Kinetics_call kinetics x 1 k = Ok (g x)) ->
      (forall x y, Xlo <= x -> x <= y -> y <= Xhi -> g x <= g y) ->
      cstr_bounds_pfr quad kinetics k Xlo Xhi g) /\
  (0 < k ->
   cstr_bounds_pfr quad "1er Orden" k Xlo Xhi (fun x => 1 / (k * (1 - x)))) /\
  (k <> 0 ->
   cstr_bounds_pfr quad "2º Orden" k Xlo Xhi
     (fun x => 1 / (k ^ 2 * (1 - x) ^ 2))).
Proof.
  intros Hlt Hhi. split; [| split].
  - intros kinetics g Hg Hmono. now apply cstr_bounds_pfr_monotone.
  - intros Hk. apply cstr_bounds_pfr_monotone; [assumption | |].
    + intros x Hx. apply first_order_curve; lra.
    + intros x y Hx Hxy Hy. apply first_order_curve_increasing; lra.
  - intros Hk. apply cstr_bounds_pfr_monotone; [assumption | |].
    + intros x Hx. apply second_order_curve; lra.
    + intros x y Hx Hxy Hy. apply second_order_curve_increasing; lra.
Qed.
End Reals.

(** ** The documented scenario *)

Section Scenario.
Local Open Scope R_scope.
Variable quadR : (R -> result R) -> R -> R -> result R.
Variable quadF : (float -> result float) -> float -> float -> result float.

Lemma scenario_heights :
  Kinetics_call "1er Orden" lit_0_4 1 lit_0_5 = Ok (10 / 3) /\
  Kinetics_call "1er Orden" lit_0_8 1 lit_0_5 = Ok 10 /\
  Kinetics_call "1er Orden" lit_0_9 1 lit_0_5 = Ok 20.
Proof.
  cbn [lit_0_4 lit_0_8 lit_0_9 lit_0_5 real_Scalar].
  repeat split; (rewrite first_order_curve; [f_equal; field | lra | lra]).
Qed.

(** C3. First-order law, [k = 0.5], checkpoints 0.4, 0.8 and 0.9, three
    CSTRs.  In real arithmetic the volumes are 4/3, 4 and 2 and the total
    22/3, within a thousandth of 1.333 and a hundredth of 7.33; in binary64
    the run prints 1.3333333333333335, 4.0000000000000009, 2 and
    7.3333333333333339. *)
Theorem first_order_three_CSTR_scenario :
  plot quadR "1er Orden" lit_0_5 lit_0_4 lit_0_8 lit_0_9 "CSTR" "CSTR" "CSTR" =
  Run [add_patch_Rectangle 0 0 (4 / 10) (10 / 3) "y";
       print "REACTOR1 CSTR Volume=%.3g L" (4 / 3);
       add_patch_Rectangle (4 / 10) 0 (4 / 10) 10 "c";
       print "REACTOR2 CSTR Volume=%.3g L" 4;
       add_patch_Rectangle (8 / 10) 0 (1 / 10) 20 "r";
       print "REACTOR3 CSTR Volume=%.3g L" 2;
       print "TOTAL Volume=%.3g L" (22 / 3)]
      (Ok tt) /\
  Rabs (4 / 3 - 1333 / 1000) < 1 / 1000 /\
  Rabs (22 / 3 - 733 / 100) < 1 / 100 /\
  plot quadF "1er Orden" lit_0_5 lit_0_4 lit_0_8 lit_0_9 "CSTR" "CSTR" "CSTR" =
  Run [add_patch_Rectangle 0 0 0.4 3.3333333333333335 "y";
       print "REACTOR1 CSTR Volume=%.3g L" 1.3333333333333335;
       add_patch_Rectangle 0.4 0 0.4 10.000000000000002 "c";
       print "REACTOR2 CSTR Volume=%.3g L" 4.0000000000000009;
       add_patch_Rectangle 0.8 0 0.099999999999999978 20.000000000000004 "r";
       print "REACTOR3 CSTR Volume=%.3g L" 2;
       print "TOTAL Volume=%.3g L" 7.3333333333333339]%float
      (Ok tt).
Proof.
  destruct scenario_heights as (H1 & H2 & H3).
  split; [| split; [| split]].
  - rewrite (plot_blocks quadR "1er Orden" first_order _ _ _ _ _ _ _
               (4 / 3) 4 2 Kinetics_first_order).
    + rewrite (reactor1_CSTR quadR _ _ _ _ H1), (reactor2_CSTR quadR _ _ _ _ _ H2),
        (reactor3_CSTR quadR _ _ _ _ _ H3).
      cbn. repeat f_equal; lra.
    + rewrite (reactor1_CSTR quadR _ _ _ _ H1). cbn. f_equal. lra.
    + rewrite (reactor2_CSTR quadR _ _ _ _ _ H2). cbn. f_equal. lra.
    + rewrite (reactor3_CSTR quadR _ _ _ _ _ H3). cbn. f_equal. lra.
  - apply Rabs_def1; lra.
  - apply Rabs_def1; lra.
  - vm_compute. reflexivity.
Qed.
End Scenario.

(** ** Runs on concrete inputs *)

(** The first-order curve for [k = 1] is integrable on [[0, 1/2]]. *)
Lemma first_order_integrable :
  Riemann_integrable (fun x => 1 / (1 * (1 - x)))%R 0%R (1 / 2)%R.
Proof.
  apply continuity_implies_RiemannInt; [lra |].
  intros x Hx. reg. lra.
Qed.

Lemma cstr_volume_closed_form_witness :
  Kinetics_call "1er Orden" (8 / 10)%R 1%R (1 / 2)%R = Ok 10%R /\
  reactor2 (constant_quad 0%R) "1er Orden" (1 / 2)%R (4 / 10)%R (8 / 10)%R "CSTR" =
  Run [add_patch_Rectangle (4 / 10)%R 0%R (8 / 10 - 4 / 10)%R 10%R "c";
       print "REACTOR2 CSTR Volume=%.3g L" ((8 / 10 - 4 / 10) * 10)%R]
      (Ok ((8 / 10 - 4 / 10) * 10)%R).
Proof.
  assert (Hy : Kinetics_call "1er Orden" (8 / 10)%R 1%R (1 / 2)%R = Ok 10%R).
  { rewrite first_order_curve; [f_equal; field | lra | lra]. }
  split; [exact Hy |].
  exact (proj1 (proj2 (cstr_volume_closed_form (constant_quad 0%R) "1er Orden"
                         (1 / 2)%R (4 / 10)%R (8 / 10)%R 10%R Hy))).
Defined.

Lemma Kinetics_formulas_witness :
  (1 / 2 <> 0)%R /\ (1 <> 0)%R /\ (4 / 10 <> 1)%R /\
  Kinetics_call "1er Orden" (4 / 10)%R (1 / 2)%R 1%R =
  Ok (1 / (1 / 2 * 1 * (1 - 4 / 10)))%R /\
  Kinetics_call "2º Orden" (4 / 10)%R (1 / 2)%R 1%R =
  Ok (1 / (1 / 2 * 1 ^ 2 * (1 - 4 / 10) ^ 2))%R.
Proof.
  assert (H1 : (1 / 2 <> 0)%R) by lra.
  assert (H2 : (1 <> 0)%R) by lra.
  assert (H3 : (4 / 10 <> 1)%R) by lra.
  repeat split; try assumption.
  - exact (proj1 (Kinetics_formulas (4 / 10)%R (1 / 2)%R 1%R H1 H2 H3)).
  - exact (proj1 (proj2 (Kinetics_formulas (4 / 10)%R (1 / 2)%R 1%R H1 H2 H3))).
Defined.

Lemma cstr_volume_at_least_pfr_volume_witness :
  (0 < 1 / 2)%R /\ (1 / 2 < 1)%R /\ (0 < 1)%R /\
  reactor2 (constant_quad (RiemannInt first_order_integrable))
    "1er Orden" 1%R 0%R (1 / 2)%R "PFR" =
  Run [add_patch_Polygon 0%R (1 / 2)%R "c";
       print "REACTOR2 PFR Volume=%.3g L" (RiemannInt first_order_integrable)]
      (Ok (RiemannInt first_order_integrable)) /\
  reactor2 (constant_quad (RiemannInt first_order_integrable))
    "1er Orden" 1%R 0%R (1 / 2)%R "CSTR" =
  Run [add_patch_Rectangle 0%R 0%R (1 / 2 - 0)%R (1 / (1 * (1 - 1 / 2)))%R "c";
       print "REACTOR2 CSTR Volume=%.3g L"
         ((1 / 2 - 0) * (1 / (1 * (1 - 1 / 2))))%R]
      (Ok ((1 / 2 - 0) * (1 / (1 * (1 - 1 / 2))))%R) /\
  (RiemannInt first_order_integrable
   <= (1 / 2 - 0) * (1 / (1 * (1 - 1 / 2))))%R.
Proof.
  assert (H1 : (0 < 1 / 2)%R) by lra.
  assert (H2 : (1 / 2 < 1)%R) by lra.
  split; [exact H1 |]. split; [exact H2 |]. split; [exact Rlt_0_1 |].
  destruct (cstr_volume_at_least_pfr_volume
              (constant_quad (RiemannInt first_order_integrable))
              1%R 0%R (1 / 2)%R H1 H2)
    as (_ & Hfirst & _).
  destruct (Hfirst Rlt_0_1 (RiemannInt first_order_integrable) eq_refl
              (ex_intro _ first_order_integrable eq_refl))
    as (((Hpfr & Hcstr) & _) & Hle).
  split; [exact Hpfr |]. split; [exact Hcstr | exact Hle].
Defined.

(** *** Binary64 *)

Section Binary64.
Local Open Scope float_scope.

(** The first-order lambda has no power in it: a first-order run is the
    same whatever the C library answers for [x ** 2], so the runs below,
    made with the stand-in [float_sqr], are the interpreter's. *)
Lemma first_order_run_ignores_power (float_pow2 : float -> result float)
    (quad : (float -> result float) -> float -> float -> result float)
    (k X1 X2 X3 : float) Reactor1 Reactor2 Reactor3 :
  plot (H := binary64 float_pow2) quad "1er Orden" k X1 X2 X3
    Reactor1 Reactor2 Reactor3 =
  plot (H := float_Scalar) quad "1er Orden" k X1 X2 X3
    Reactor1 Reactor2 Reactor3.
Proof. reflexivity. Qed.

Lemma total_volume_is_sum_witness :
  is_Some ((Kinetics (F := float)) !! "1er Orden") /\
  outcome (reactor1 midpoint_quad "1er Orden" 0.5 0.4 "CSTR")
  = Ok 1.3333333333333335 /\
  outcome (reactor2 midpoint_quad "1er Orden" 0.5 0.4 0.8 "PFR")
  = Ok 2.0000000000000004 /\
  outcome (reactor3 midpoint_quad "1er Orden" 0.5 0.8 0.9 "PFR")
  = Ok 1.3333333333333337 /\
  outcome (plot midpoint_quad "1er Orden" 0.5 0.4 0.8 0.9 "CSTR" "PFR" "PFR")
  = Ok tt /\
  last (events (plot midpoint_quad "1er Orden" 0.5 0.4 0.8 0.9 "CSTR" "PFR" "PFR"))
  = Some (print "TOTAL Volume=%.3g L"
            (1.3333333333333335 + 2.0000000000000004 + 1.3333333333333337)).
Proof.
  assert (H0 : is_Some ((Kinetics (F := float)) !! "1er Orden"))
    by (eexists; reflexivity).
  assert (H1 : outcome (reactor1 midpoint_quad "1er Orden" 0.5 0.4 "CSTR")
               = Ok 1.3333333333333335) by (vm_compute; reflexivity).
  assert (H2 : outcome (reactor2 midpoint_quad "1er Orden" 0.5 0.4 0.8 "PFR")
               = Ok 2.0000000000000004) by (vm_compute; reflexivity).
  assert (H3 : outcome (reactor3 midpoint_quad "1er Orden" 0.5 0.8 0.9 "PFR")
               = Ok 1.3333333333333337) by (vm_compute; reflexivity).
  destruct (total_volume_is_sum midpoint_quad "1er Orden" 0.5 0.4 0.8 0.9
              "CSTR" "PFR" "PFR" _ _ _ H0 H1 H2 H3)
    as (Hrun & reports & Hevents & _).
  split; [exact H0 |]. split; [exact H1 |]. split; [exact H2 |].
  split; [exact H3 |]. split; [exact Hrun |].
  rewrite Hevents. apply last_snoc.
Defined.

(** C8, where the claim fails: checkpoints 0.8, 0.4, 0.9 are not
    increasing, and checkpoints 0.4, 0.8, 1.5 leave the unit interval; both
    runs return, the first with a negative second volume, the second with a
    negative third volume. *)
Lemma plot_returns_on_invalid_checkpoints :
  PrimFloat.ltb 0.4 0.8 = true /\
  plot midpoint_quad "1er Orden" 0.5 0.8 0.4 0.9 "CSTR" "CSTR" "CSTR" =
  Run [add_patch_Rectangle 0 0 0.8 10.000000000000002 "y";
       print "REACTOR1 CSTR Volume=%.3g L" 8.0000000000000018;
       add_patch_Rectangle 0.8 0 (-0.4) 3.3333333333333335 "c";
       print "REACTOR2 CSTR Volume=%.3g L" (-1.3333333333333335);
       add_patch_Rectangle 0.4 0 0.5 20.000000000000004 "r";
       print "REACTOR3 CSTR Volume=%.3g L" 10.000000000000002;
       print "TOTAL Volume=%.3g L" 16.666666666666671]
      (Ok tt) /\
  PrimFloat.ltb 1 1.5 = true /\
  plot midpoint_quad "1er Orden" 0.5 0.4 0.8 1.5 "CSTR" "CSTR" "CSTR" =
  Run [add_patch_Rectangle 0 0 0.4 3.3333333333333335 "y";
       print "REACTOR1 CSTR Volume=%.3g L" 1.3333333333333335;
       add_patch_Rectangle 0.4 0 0.4 10.000000000000002 "c";
       print "REACTOR2 CSTR Volume=%.3g L" 4.0000000000000009;
       add_patch_Rectangle 0.8 0 0.69999999999999996 (-4) "r";
       print "REACTOR3 CSTR Volume=%.3g L" (-2.7999999999999998);
       print "TOTAL Volume=%.3g L" 2.5333333333333341]
      (Ok tt).
Proof. repeat split; vm_compute; reflexivity. Qed.

Lemma plot_accepts_any_checkpoints_witness :
  Kinetics_call "1er Orden" 0.8 1 0.5 = Ok 10.000000000000002 /\
  Kinetics_call "1er Orden" 0.4 1 0.5 = Ok 3.3333333333333335 /\
  Kinetics_call "1er Orden" 0.9 1 0.5 = Ok 20.000000000000004 /\
  outcome (plot midpoint_quad "1er Orden" 0.5 0.8 0.4 0.9 "CSTR" "CSTR" "CSTR")
  = Ok tt.
Proof.
  assert (H1 : Kinetics_call "1er Orden" 0.8 1 0.5 = Ok 10.000000000000002)
    by (vm_compute; reflexivity).
  assert (H2 : Kinetics_call "1er Orden" 0.4 1 0.5 = Ok 3.3333333333333335)
    by (vm_compute; reflexivity).
  assert (H3 : Kinetics_call "1er Orden" 0.9 1 0.5 = Ok 20.000000000000004)
    by (vm_compute; reflexivity).
  split; [exact H1 |]. split; [exact H2 |]. split; [exact H3 |].
  now rewrite (plot_accepts_any_checkpoints midpoint_quad "1er Orden"
                 0.5 0.8 0.4 0.9 _ _ _ H1 H2 H3).
Defined.

Lemma plot_unknown_rate_law_witness :
  (Kinetics (F := float)) !! "zeroth-order" = None /\
  plot midpoint_quad "zeroth-order" 0.5 0.4 0.8 0.9 "CSTR" "CSTR" "CSTR" =
  Run [] (Err (KeyError "zeroth-order")).
Proof.
  split; [reflexivity |].
  apply (plot_unknown_rate_law midpoint_quad "zeroth-order" 0.5 0.4 0.8 0.9).
  reflexivity.
Defined.

Lemma reactor_type_other_than_CSTR_is_PFR_witness :
  "cstr" <> "CSTR" /\
  reactor2 midpoint_quad "1er Orden" 0.5 0.4 0.8 "cstr" =
  Run [add_patch_Polygon 0.4 0.8 "c";
       print "REACTOR2 PFR Volume=%.3g L" 2.0000000000000004]
      (Ok 2.0000000000000004).
Proof.
  assert (Hr : "cstr" <> "CSTR") by discriminate.
  split; [exact Hr |].
  destruct (reactor_type_other_than_CSTR_is_PFR midpoint_quad "1er Orden"
              0.5 0.4 0.8 "cstr" Hr) as (_ & -> & _).
  vm_compute. reflexivity.
Defined.
End Binary64.

(** * How a run unfolds *)

Section Unfolding.
Context {F : Type} `{Scalar F}.
Local Open Scope py_scope.
Variable quad : (F -> result F) -> F -> F -> result F.

(** X1. In each of the three blocks the inverse rate or the quadrature is
    evaluated before anything is drawn or printed: a block that raises
    leaves no patch and no line, and a block that returns has added one
    patch and printed one line, carrying the very volume it returns. *)
Theorem blocks_report_their_volume kinetics (k Xlo Xhi : F) Reactor :
  reports_its_volume (reactor1 quad kinetics k Xhi Reactor) /\
  reports_its_volume (reactor2 quad kinetics k Xlo Xhi Reactor) /\
  reports_its_volume (reactor3 quad kinetics k Xlo Xhi Reactor).
Proof.
  unfold reports_its_volume, reactor1, reactor2, reactor3.
  destruct (String.eqb Reactor "CSTR");
    unfold mbind, M_bind, lift, emit; cbn.
  - destruct (Kinetics_call kinetics Xhi lit_1 k) as [y|e]; cbn;
      repeat split; try reflexivity;
      eexists _, _; (split; [reflexivity | discriminate]).
  - repeat split.
    + destruct (quad _ lit_0 Xhi) as [V|e]; cbn; try reflexivity.
      eexists _, _; (split; [reflexivity | discriminate]).
    + destruct (quad _ Xlo Xhi) as [V|e]; cbn; try reflexivity.
      eexists _, _; (split; [reflexivity | discriminate]).
    + destruct (quad _ Xlo Xhi) as [V|e]; cbn; try reflexivity.
      eexists _, _; (split; [reflexivity | discriminate]).
Qed.

(** A block that raised has no events. *)
Lemma reactor1_Err kinetics (k X1 : F) Reactor1 e :
  outcome (reactor1 quad kinetics k X1 Reactor1) = Err e ->
  events (reactor1 quad kinetics k X1 Reactor1) = [].
Proof.
  unfold reactor1. destruct (String.eqb Reactor1 "CSTR");
    unfold mbind, M_bind, lift, emit; cbn.
  - now destruct (Kinetics_call kinetics X1 lit_1 k).
  - now destruct (quad _ lit_0 X1).
Qed.

Lemma reactor2_Err kinetics (k X1 X2 : F) Reactor2 e :
  outcome (reactor2 quad kinetics k X1 X2 Reactor2) = Err e ->
  events (reactor2 quad kinetics k X1 X2 Reactor2) = [].
Proof.
  unfold reactor2. destruct (String.eqb Reactor2 "CSTR");
    unfold mbind, M_bind, lift, emit; cbn.
  - now destruct (Kinetics_call kinetics X2 lit_1 k).
  - now destruct (quad _ X1 X2).
Qed.

Lemma reactor3_Err kinetics (k X2 X3 : F) Reactor3 e :
  outcome (reactor3 quad kinetics k X2 X3 Reactor3) = Err e ->
  events (reactor3 quad kinetics k X2 X3 Reactor3) = [].
Proof.
  unfold reactor3. destruct (String.eqb Reactor3 "CSTR");
    unfold mbind, M_bind, lift, emit; cbn.
  - now destruct (Kinetics_call kinetics X3 lit_1 k).
  - now destruct (quad _ X2 X3).
Qed.

(** X2. [plot] stops at the first block that raises, with that block's
    exception: what the earlier blocks drew and printed stays, the failing
    block and the later ones add nothing, and no total is printed. *)
Theorem plot_stops_at_first_failure kinetics (k X1 X2 X3 : F)
    Reactor1 Reactor2 Reactor3 e :
  is_Some ((Kinetics (F := F)) !! kinetics) ->
  (outcome (reactor1 quad kinetics k X1 Reactor1) = Err e ->
   plot quad kinetics k X1 X2 X3 Reactor1 Reactor2 Reactor3 = Run [] (Err e)) /\
  (forall V1,
      outcome (reactor1 quad kinetics k X1 Reactor1) = Ok V1 ->
      outcome (reactor2 quad kinetics k X1 X2 Reactor2) = Err e ->
      plot quad kinetics k X1 X2 X3 Reactor1 Reactor2 Reactor3 =
      Run (events (reactor1 quad kinetics k X1 Reactor1)) (Err e)) /\
  (forall V1 V2,
      outcome (reactor1 quad kinetics k X1 Reactor1) = Ok V1 ->
      outcome (reactor2 quad kinetics k X1 X2 Reactor2) = Ok V2 ->
      outcome (reactor3 quad kinetics k X2 X3 Reactor3) = Err e ->
      plot quad kinetics k X1 X2 X3 Reactor1 Reactor2 Reactor3 =
      Run (events (reactor1 quad kinetics k X1 Reactor1)
           ++ events (reactor2 quad kinetics k X1 X2 Reactor2))
          (Err e)).
Proof.
  intros [f Hf]. unfold plot, getitem. rewrite Hf.
  unfold mbind at 1, M_bind at 1, lift at 1. cbn [outcome events app].
  split; [| split].
  - intros H1. unfold mbind, M_bind. rewrite H1.
    now rewrite (reactor1_Err _ _ _ _ _ H1).
  - intros V1 H1 H2. unfold mbind, M_bind. rewrite H1. cbn.
    rewrite H2. cbn. now rewrite (reactor2_Err _ _ _ _ _ _ H2), app_nil_r.
  - intros V1 V2 H1 H2 H3. unfold mbind, M_bind. rewrite H1. cbn.
    rewrite H2. cbn. rewrite H3. cbn.
    now rewrite (reactor3_Err _ _ _ _ _ _ H3), app_nil_r.
Qed.
End Unfolding.

Section Totals.
Context {F : Type} `{Scalar F}.
Local Open Scope py_scope.
Variable quad : (F -> result F) -> F -> F -> result F.

(** No block prints a line in the format of the total. *)
Lemma reactor1_no_total kinetics (k X1 : F) Reactor1 (T : F) :
  print "TOTAL Volume=%.3g L" T ∉ events (reactor1 quad kinetics k X1 Reactor1).
Proof.
  unfold reactor1. destruct (String.eqb Reactor1 "CSTR");
    unfold mbind, M_bind, lift, emit; cbn.
  - destruct (Kinetics_call kinetics X1 lit_1 k); cbn;
      rewrite ?elem_of_cons, ?elem_of_nil; intuition discriminate.
  - destruct (quad _ lit_0 X1); cbn;
      rewrite ?elem_of_cons, ?elem_of_nil; intuition discriminate.
Qed.

Lemma reactor2_no_total kinetics (k X1 X2 : F) Reactor2 (T : F) :
  print "TOTAL Volume=%.3g L" T ∉ events (reactor2 quad kinetics k X1 X2 Reactor2).
Proof.
  unfold reactor2. destruct (String.eqb Reactor2 "CSTR");
    unfold mbind, M_bind, lift, emit; cbn.
  - destruct (Kinetics_call kinetics X2 lit_1 k); cbn;
      rewrite ?elem_of_cons, ?elem_of_nil; intuition discriminate.
  - destruct (quad _ X1 X2); cbn;
      rewrite ?elem_of_cons, ?elem_of_nil; intuition discriminate.
Qed.

Lemma reactor3_no_total kinetics (k X2 X3 : F) Reactor3 (T : F) :
  print "TOTAL Volume=%.3g L" T ∉ events (reactor3 quad kinetics k X2 X3 Reactor3).
Proof.
  unfold reactor3. destruct (String.eqb Reactor3 "CSTR");
    unfold mbind, M_bind, lift, emit; cbn.
  - destruct (Kinetics_call kinetics X3 lit_1 k); cbn;
      rewrite ?elem_of_cons, ?elem_of_nil; intuition discriminate.
  - destruct (quad _ X2 X3); cbn;
      rewrite ?elem_of_cons, ?elem_of_nil; intuition discriminate.
Qed.

(** X3. A line in the format of the total is printed exactly when [plot]
    returns: a run stopped by an exception, whichever and wherever, shows
    no total, and a run that returns shows one. *)
Theorem plot_prints_total_iff_it_returns kinetics (k X1 X2 X3 : F)
    Reactor1 Reactor2 Reactor3 :
  (exists T, print "TOTAL Volume=%.3g L" T
             ∈ events (plot quad kinetics k X1 X2 X3 Reactor1 Reactor2 Reactor3))
  <-> outcome (plot quad kinetics k X1 X2 X3 Reactor1 Reactor2 Reactor3) = Ok tt.
Proof.
  pose proof (fun T => reactor1_no_total kinetics k X1 Reactor1 T) as N1.
  pose proof (fun T => reactor2_no_total kinetics k X1 X2 Reactor2 T) as N2.
  pose proof (fun T => reactor3_no_total kinetics k X2 X3 Reactor3 T) as N3.
  unfold plot, getitem.
  destruct (Kinetics !! kinetics) as [f|]; unfold mbind, M_bind, lift, emit; cbn.
  2: { split; [intros [T HT]; now apply elem_of_nil in HT | discriminate]. }
  destruct (outcome (reactor1 quad kinetics k X1 Reactor1)) as [V1|e1]; cbn.
  2: { split; [intros [T HT]; now apply N1 in HT | discriminate]. }
  destruct (outcome (reactor2 quad kinetics k X1 X2 Reactor2)) as [V2|e2]; cbn.
  2: { split; [intros [T HT] | discriminate].
       apply elem_of_app in HT as [HT | HT]; [now apply N1 in HT | now apply N2 in HT]. }
  destruct (outcome (reactor3 quad kinetics k X2 X3 Reactor3)) as [V3|e3]; cbn.
  2: { split; [intros [T HT] | discriminate].
       apply elem_of_app in HT as [HT | HT]; [now apply N1 in HT |].
       apply elem_of_app in HT as [HT | HT]; [now apply N2 in HT | now apply N3 in HT]. }
  split; [reflexivity | intros _].
  exists (V1 + V2 + V3). rewrite !elem_of_app, list_elem_of_singleton. auto.
Qed.

(** X4. The names [Kinetics] accepts are the three assigned, letter for
    letter: the lookup raises [KeyError] for every other string and only
    for those. *)
Theorem Kinetics_accepts_exactly_three_names (kinetics : string) :
  getitem (Kinetics (F := F)) kinetics = Err (KeyError kinetics) <->
  kinetics <> "1er Orden" /\ kinetics <> "2º Orden"
  /\ kinetics <> "Langmuir-Hinshelwood".
Proof.
  pose proof (Kinetics_keys (F := F) kinetics) as Hkeys.
  unfold getitem. destruct (Kinetics !! kinetics) as [f|] eqn:Hf.
  - split; [discriminate |]. intros (H1 & H2 & H3).
    destruct (proj1 Hkeys (mk_is_Some _ _ eq_refl)) as [E | [E | E]];
      contradiction.
  - split; [intros _ | reflexivity].
    repeat split; intros E; assert (Hs : is_Some (None : option (F -> F -> F -> result F)))
      by (apply Hkeys; auto); now destruct Hs.
Qed.
End Totals.

(** * The curve is all a run sees of the rate law *)

Section Curve.
Context {F : Type} `{Scalar F}.
Local Open Scope py_scope.
Variable quad : (F -> result F) -> F -> F -> result F.

(** Two rate laws and constants with the same curve
    [X => Kinetics[kinetics](X, 1.0, k)] give the same integrand. *)
Lemma same_curve_same_integrand kinetics kinetics' (k k' : F) :
  (forall x, Kinetics_call kinetics x lit_1 k = Kinetics_call kinetics' x lit_1 k') ->
  (fun x => Kinetics_call kinetics x lit_1 k) =
  (fun x => Kinetics_call kinetics' x lit_1 k').
Proof. intros Hc. now apply functional_extensionality. Qed.

Lemma reactor1_same_curve kinetics kinetics' (k k' X1 : F) Reactor1 :
  (forall x, Kinetics_call kinetics x lit_1 k = Kinetics_call kinetics' x lit_1 k') ->
  reactor1 quad kinetics k X1 Reactor1 = reactor1 quad kinetics' k' X1 Reactor1.
Proof.
  intros Hc. unfold reactor1.
  now rewrite (same_curve_same_integrand _ _ _ _ Hc), (Hc X1).
Qed.

Lemma reactor2_same_curve kinetics kinetics' (k k' X1 X2 : F) Reactor2 :
  (forall x, Kinetics_call kinetics x lit_1 k = Kinetics_call kinetics' x lit_1 k') ->
  reactor2 quad kinetics k X1 X2 Reactor2 = reactor2 quad kinetics' k' X1 X2 Reactor2.
Proof.
  intros Hc. unfold reactor2.
  now rewrite (same_curve_same_integrand _ _ _ _ Hc), (Hc X2).
Qed.

Lemma reactor3_same_curve kinetics kinetics' (k k' X2 X3 : F) Reactor3 :
  (forall x, Kinetics_call kinetics x lit_1 k = Kinetics_call kinetics' x lit_1 k') ->
  reactor3 quad kinetics k X2 X3 Reactor3 = reactor3 quad kinetics' k' X2 X3 Reactor3.
Proof.
  intros Hc. unfold reactor3.
  now rewrite (same_curve_same_integrand _ _ _ _ Hc), (Hc X3).
Qed.

(** X5. A run depends on the rate law and on [k] only through the curve
    [X => Kinetics[kinetics](X, 1.0, k)]: two registered laws and constants
    with the same curve draw the same patches, print the same lines and
    end alike, whatever the checkpoints and the reactor types.  Neither the
    name of the law nor [k] appears in what is reported. *)
Theorem plot_depends_on_the_curve_only kinetics kinetics' (k k' X1 X2 X3 : F)
    Reactor1 Reactor2 Reactor3 :
  is_Some ((Kinetics (F := F)) !! kinetics) ->
  is_Some ((Kinetics (F := F)) !! kinetics') ->
  (forall x, Kinetics_call kinetics x lit_1 k = Kinetics_call kinetics' x lit_1 k') ->
  plot quad kinetics k X1 X2 X3 Reactor1 Reactor2 Reactor3 =
  plot quad kinetics' k' X1 X2 X3 Reactor1 Reactor2 Reactor3.
Proof.
  intros [f Hf] [f' Hf'] Hc. unfold plot, getitem. rewrite Hf, Hf'.
  rewrite (reactor1_same_curve kinetics kinetics' k k' X1 Reactor1 Hc).
  rewrite (reactor2_same_curve kinetics kinetics' k k' X1 X2 Reactor2 Hc).
  now rewrite (reactor3_same_curve kinetics kinetics' k k' X2 X3 Reactor3 Hc).
Qed.
End Curve.

(** * The lambdas as [plot] calls them, over the real numbers *)

Section Domain.
Local Open Scope R_scope.

Lemma second_order_swapped (x k : R) :
  Kinetics_call "2º Orden" x 1 k = real_div 1 (k ^ 2 * (1 - x) ^ 2).
Proof.
  rewrite (Kinetics_call_registered _ _ _ _ _ Kinetics_second_order).
  now rewrite second_order_real, Rmult_1_l.
Qed.

Lemma langmuir_hinshelwood_swapped (x k : R) :
  Kinetics_call "Langmuir-Hinshelwood" x 1 k =
  (q ← real_div (k * (1 - x)) ((5 / 10 + 12 / 10 * k * (1 - x)) ^ 2);
   real_div 1 q).
Proof.
  rewrite (Kinetics_call_registered _ _ _ _ _ Kinetics_langmuir_hinshelwood).
  now rewrite langmuir_hinshelwood_real, Rmult_1_l, Rmult_1_r.
Qed.

End Domain.

(** * Plug flow in series, and a curve that falls *)

Section Areas.
Local Open Scope R_scope.
Variable quad : (R -> result R) -> R -> R -> result R.

(** X10. Plug-flow reactors in series size as one: when the three
    quadratures of a train of PFRs return the areas under the curve over
    [[0, X1]], [[X1, X2]] and [[X2, X3]], [plot] returns and the total it
    prints is the area over [[0, X3]], the segments leaving no gap and no
    overlap. *)
Theorem PFR_train_is_single_PFR kinetics (k X1 X2 X3 V1 V2 V3 : R) (g : R -> R) :
  is_Some ((Kinetics (F := R)) !! kinetics) ->
  0 <= X1 -> X1 <= X2 -> X2 <= X3 ->
  (forall x, 0 <= x <= X3 -> Kinetics_call kinetics x 1 k = Ok (g x)) ->
  quad (fun x => Kinetics_call kinetics x 1 k) 0 X1 = Ok V1 ->
  quad (fun x => Kinetics_call kinetics x 1 k) X1 X2 = Ok V2 ->
  quad (fun x => Kinetics_call kinetics x 1 k) X2 X3 = Ok V3 ->
  exact_integral g 0 X1 V1 ->
  exact_integral g X1 X2 V2 ->
  exact_integral g X2 X3 V3 ->
  plot quad kinetics k X1 X2 X3 "PFR" "PFR" "PFR" =
  Run [add_patch_Polygon 0 X1 "y";
       print "REACTOR1 PFR Volume=%.3g L" V1;
       add_patch_Polygon X1 X2 "c";
       print "REACTOR2 PFR Volume=%.3g L" V2;
       add_patch_Polygon X2 X3 "r";
       print "REACTOR3 PFR Volume=%.3g L" V3;
       print "TOTAL Volume=%.3g L" (V1 + V2 + V3)]
      (Ok tt) /\
  exact_integral g 0 X3 (V1 + V2 + V3).
Proof.
  intros [f Hf] _ _ _ _ Q1 Q2 Q3 [pr1 ->] [pr2 ->] [pr3 ->].
  split.
  - unfold plot, getitem. rewrite Hf.
    unfold reactor1, reactor2, reactor3. cbn [String.eqb Ascii.eqb Bool.eqb].
    cbn in Q1, Q2, Q3 |- *. unfold mbind, M_bind, lift, emit. cbn.
    rewrite Q1. cbn. rewrite Q2. cbn. rewrite Q3. reflexivity.
  - pose (pr12 := RiemannInt_P24 pr1 pr2).
    exists (RiemannInt_P24 pr12 pr3).
    now rewrite <- (RiemannInt_P26 pr12 pr3), <- (RiemannInt_P26 pr1 pr2 pr12).
Qed.

(** Under a curve that does not increase on [[a, b]], the area is at least
    the rectangle raised at the right edge. *)
Lemma integral_ge_right_rectangle (g : R -> R) (a b : R)
    (pr : Riemann_integrable g a b) :
  a < b ->
  (forall x y, a <= x -> x <= y -> y <= b -> g y <= g x) ->
  (b - a) * g b <= RiemannInt pr.
Proof.
  intros Hab Hmono.
  rewrite Rmult_comm, <- (RiemannInt_P15 (RiemannInt_P14 a b (g b))).
  apply RiemannInt_P19; [lra |].
  intros x Hx. unfold fct_cte. apply Hmono; lra.
Qed.

(** The Langmuir-Hinshelwood curve as [plot] evaluates it. *)
Lemma langmuir_hinshelwood_curve (k x : R) :
  0 < k -> x < 1 ->
  Kinetics_call "Langmuir-Hinshelwood" x 1 k =
  Ok (1 / (k * (1 - x) / (5 / 10 + 12 / 10 * k * (1 - x)) ^ 2)).
Proof.
  intros Hk Hx.
  assert (Hu : 0 < k * (1 - x)) by nra.
  assert (Hd : 0 < (5 / 10 + 12 / 10 * k * (1 - x)) ^ 2) by (apply pow_lt; nra).
  rewrite langmuir_hinshelwood_swapped, real_div_Ok
    by (apply Rgt_not_eq; exact Hd).
  unfold mbind, result_bind. apply real_div_Ok, Rgt_not_eq.
  now apply Rdiv_lt_0_compat.
Qed.

(** It falls as long as [k * (1 - X)] stays above 5/12. *)
Lemma langmuir_hinshelwood_curve_decreasing (k x y : R) :
  0 < k -> x <= y -> y < 1 -> 5 / 12 <= k * (1 - y) ->
  1 / (k * (1 - y) / (5 / 10 + 12 / 10 * k * (1 - y)) ^ 2) <=
  1 / (k * (1 - x) / (5 / 10 + 12 / 10 * k * (1 - x)) ^ 2).
Proof.
  intros Hk Hxy Hy Hv.
  replace (12 / 10 * k * (1 - y)) with (12 / 10 * (k * (1 - y))) by ring.
  replace (12 / 10 * k * (1 - x)) with (12 / 10 * (k * (1 - x))) by ring.
  set (u := k * (1 - x)). set (v := k * (1 - y)) in *.
  assert (Hvu : v <= u) by (unfold u, v; nra).
  assert (Hv0 : 0 < v) by lra.
  assert (Hu0 : 0 < u) by lra.
  assert (Hkey : 0 <= (u - v) * (144 / 100 * (u * v) - 25 / 100)).
  { apply Rmult_le_pos; [lra |]. nra. }
  replace (1 / (v / (5 / 10 + 12 / 10 * v) ^ 2))
    with ((5 / 10 + 12 / 10 * v) ^ 2 / v) by (field; split; nra).
  replace (1 / (u / (5 / 10 + 12 / 10 * u) ^ 2))
    with ((5 / 10 + 12 / 10 * u) ^ 2 / u) by (field; split; nra).
  apply (Rmult_le_reg_r (u * v)); [nra |].
  replace ((5 / 10 + 12 / 10 * v) ^ 2 / v * (u * v))
    with ((5 / 10 + 12 / 10 * v) ^ 2 * u) by (field; lra).
  replace ((5 / 10 + 12 / 10 * u) ^ 2 / u * (u * v))
    with ((5 / 10 + 12 / 10 * u) ^ 2 * v) by (field; lra).
  assert (Hdiff : (5 / 10 + 12 / 10 * u) ^ 2 * v - (5 / 10 + 12 / 10 * v) ^ 2 * u
                  = (u - v) * (144 / 100 * (u * v) - 25 / 100)) by field.
  apply Rge_le, Rminus_ge, Rle_ge. rewrite Hdiff. exact Hkey.
Qed.

(** X11. The rectangle is not always the larger.  For a positive [k],
    on a segment with [Xlo < Xhi < 1] and [k * (1 - Xhi) >= 5/12], the
    Langmuir-Hinshelwood curve that [plot] evaluates does not increase,
    and the CSTR volume [(Xhi - Xlo) * g Xhi] is at most the PFR volume:
    when the quadrature the PFR branch calls answers the area under the
    curve, the block run as a PFR returns it and the block run as a CSTR
    returns no more. *)
Theorem langmuir_hinshelwood_CSTR_at_most_PFR (k Xlo Xhi : R) :
  0 < k -> Xlo < Xhi -> Xhi < 1 -> 5 / 12 <= k * (1 - Xhi) ->
  (forall x, Xlo <= x <= Xhi ->
             Kinetics_call "Langmuir-Hinshelwood" x 1 k =
             Ok (1 / (k * (1 - x) / (5 / 10 + 12 / 10 * k * (1 - x)) ^ 2))) /\
  (forall x y, Xlo <= x -> x <= y -> y <= Xhi ->
               1 / (k * (1 - y) / (5 / 10 + 12 / 10 * k * (1 - y)) ^ 2) <=
               1 / (k * (1 - x) / (5 / 10 + 12 / 10 * k * (1 - x)) ^ 2)) /\
  pfr_bounds_cstr quad "Langmuir-Hinshelwood" k Xlo Xhi
    (fun x => 1 / (k * (1 - x) / (5 / 10 + 12 / 10 * k * (1 - x)) ^ 2)).
Proof.
  intros Hk Hlt Hhi Hv.
  assert (Hmono : forall x y, Xlo <= x -> x <= y -> y <= Xhi ->
            1 / (k * (1 - y) / (5 / 10 + 12 / 10 * k * (1 - y)) ^ 2) <=
            1 / (k * (1 - x) / (5 / 10 + 12 / 10 * k * (1 - x)) ^ 2)).
  { intros x y Hx Hxy Hyb.
    apply langmuir_hinshelwood_curve_decreasing; try assumption; [lra |].
    assert (k * (1 - Xhi) <= k * (1 - y)) by nra. lra. }
  split; [| split; [exact Hmono |]].
  - intros x Hx. apply langmuir_hinshelwood_curve; [assumption | lra].
  - intros Vpfr Q [pr ->]. split.
    + apply segment_runs_hold; [| exact Q].
      now apply langmuir_hinshelwood_curve.
    + exact (integral_ge_right_rectangle _ Xlo Xhi pr Hlt Hmono).
Qed.

(** X12. The second-order law does not see the sign of [k]: [plot]
    squares it, so a run with [- k] is the run with [k], patch for patch
    and line for line, for all checkpoints and reactor types. *)
Theorem second_order_ignores_sign_of_k (k X1 X2 X3 : R)
    Reactor1 Reactor2 Reactor3 :
  plot quad "2º Orden" (- k) X1 X2 X3 Reactor1 Reactor2 Reactor3 =
  plot quad "2º Orden" k X1 X2 X3 Reactor1 Reactor2 Reactor3.
Proof.
  assert (Hc : forall x, Kinetics_call "2º Orden" x lit_1 (- k)
                         = Kinetics_call "2º Orden" x lit_1 k).
  { intros x. cbn [lit_1 real_Scalar]. rewrite !second_order_swapped.
    f_equal. ring. }
  unfold plot.
  rewrite (reactor1_same_curve quad "2º Orden" "2º Orden" (- k) k X1 Reactor1 Hc).
  rewrite (reactor2_same_curve quad "2º Orden" "2º Orden" (- k) k X1 X2 Reactor2 Hc).
  now rewrite (reactor3_same_curve quad "2º Orden" "2º Orden" (- k) k X2 X3 Reactor3 Hc).
Qed.
End Areas.

(** * Further runs on concrete inputs *)

Section MoreRuns.
Local Open Scope R_scope.

Lemma plot_stops_at_first_failure_witness :
  is_Some ((Kinetics (F := float)) !! "1er Orden") /\
  plot midpoint_quad "1er Orden" 0.5%float 0.4%float 1%float 0.9%float
    "CSTR" "CSTR" "CSTR" =
  Run [add_patch_Rectangle 0%float 0%float 0.4%float 3.3333333333333335%float "y";
       print "REACTOR1 CSTR Volume=%.3g L" 1.3333333333333335%float]
      (Err ZeroDivisionError).
Proof.
  assert (H0 : is_Some ((Kinetics (F := float)) !! "1er Orden"))
    by (eexists; reflexivity).
  assert (H1 : outcome (reactor1 midpoint_quad "1er Orden" 0.5%float 0.4%float "CSTR")
               = Ok 1.3333333333333335%float) by (vm_compute; reflexivity).
  assert (H2 : outcome (reactor2 midpoint_quad "1er Orden" 0.5%float 0.4%float
                          1%float "CSTR")
               = Err ZeroDivisionError) by (vm_compute; reflexivity).
  split; [exact H0 |].
  rewrite (proj1 (proj2 (plot_stops_at_first_failure midpoint_quad "1er Orden"
                           0.5%float 0.4%float 1%float 0.9%float
                           "CSTR" "CSTR" "CSTR" ZeroDivisionError H0))
             _ H1 H2).
  vm_compute. reflexivity.
Defined.

Lemma plot_depends_on_the_curve_only_witness :
  is_Some ((Kinetics (F := R)) !! "2º Orden") /\
  (forall x, Kinetics_call "2º Orden" x 1 (- (1 / 2))
             = Kinetics_call "2º Orden" x 1 (1 / 2)) /\
  plot (constant_quad 0) "2º Orden" (- (1 / 2)) (4 / 10) (8 / 10) (9 / 10)
    "CSTR" "PFR" "CSTR" =
  plot (constant_quad 0) "2º Orden" (1 / 2) (4 / 10) (8 / 10) (9 / 10)
    "CSTR" "PFR" "CSTR".
Proof.
  assert (Hs : is_Some ((Kinetics (F := R)) !! "2º Orden"))
    by (eexists; reflexivity).
  assert (Hc : forall x, Kinetics_call "2º Orden" x 1 (- (1 / 2))
                         = Kinetics_call "2º Orden" x 1 (1 / 2)).
  { intros x. rewrite !second_order_swapped. f_equal. field. }
  split; [exact Hs |]. split; [exact Hc |].
  exact (plot_depends_on_the_curve_only (constant_quad 0) "2º Orden" "2º Orden"
           (- (1 / 2)) (1 / 2) (4 / 10) (8 / 10) (9 / 10)
           "CSTR" "PFR" "CSTR" Hs Hs Hc).
Defined.

End MoreRuns.

Section AreaRuns.
Local Open Scope R_scope.

(** The first-order curve for [k = 1] is integrable on a segment that ends
    below conversion one. *)
Lemma first_order_integrable_between (a b : R) :
  a <= b -> b < 1 -> Riemann_integrable (fun x => 1 / (1 * (1 - x))) a b.
Proof.
  intros Hab Hb. apply continuity_implies_RiemannInt; [assumption |].
  intros x Hx. reg. lra.
Qed.

Lemma first_quarter_integrable :
  Riemann_integrable (fun x => 1 / (1 * (1 - x))) 0 (1 / 4).
Proof. apply first_order_integrable_between; lra. Qed.

Lemma second_quarter_integrable :
  Riemann_integrable (fun x => 1 / (1 * (1 - x))) (1 / 4) (1 / 2).
Proof. apply first_order_integrable_between; lra. Qed.

Lemma third_quarter_integrable :
  Riemann_integrable (fun x => 1 / (1 * (1 - x))) (1 / 2) (3 / 4).
Proof. apply first_order_integrable_between; lra. Qed.

Lemma PFR_train_is_single_PFR_witness :
  0 <= 1 / 4 /\ 1 / 4 <= 1 / 2 /\ 1 / 2 <= 3 / 4 /\
  outcome (plot (table_quad (1 / 4) (1 / 2)
                   (RiemannInt first_quarter_integrable)
                   (RiemannInt second_quarter_integrable)
                   (RiemannInt third_quarter_integrable))
             "1er Orden" 1 (1 / 4) (1 / 2) (3 / 4) "PFR" "PFR" "PFR") = Ok tt /\
  exact_integral (fun x => 1 / (1 * (1 - x))) 0 (3 / 4)
    (RiemannInt first_quarter_integrable
     + RiemannInt second_quarter_integrable
     + RiemannInt third_quarter_integrable).
Proof.
  set (q := table_quad (1 / 4) (1 / 2)
              (RiemannInt first_quarter_integrable)
              (RiemannInt second_quarter_integrable)
              (RiemannInt third_quarter_integrable)).
  assert (Hs : is_Some ((Kinetics (F := R)) !! "1er Orden"))
    by (eexists; reflexivity).
  assert (H0 : 0 <= 1 / 4) by lra.
  assert (H1 : 1 / 4 <= 1 / 2) by lra.
  assert (H2 : 1 / 2 <= 3 / 4) by lra.
  assert (Hg : forall x, 0 <= x <= 3 / 4 ->
                         Kinetics_call "1er Orden" x 1 1 = Ok (1 / (1 * (1 - x))))
    by (intros x Hx; apply first_order_curve; lra).
  assert (Q1 : q (fun x => Kinetics_call "1er Orden" x 1 1) 0 (1 / 4)
               = Ok (RiemannInt first_quarter_integrable)).
  { unfold q, table_quad.
    destruct (Req_dec_T (1 / 4) (1 / 4)); [reflexivity | contradiction]. }
  assert (Q2 : q (fun x => Kinetics_call "1er Orden" x 1 1) (1 / 4) (1 / 2)
               = Ok (RiemannInt second_quarter_integrable)).
  { unfold q, table_quad.
    destruct (Req_dec_T (1 / 2) (1 / 4)); [lra |].
    destruct (Req_dec_T (1 / 2) (1 / 2)); [reflexivity | contradiction]. }
  assert (Q3 : q (fun x => Kinetics_call "1er Orden" x 1 1) (1 / 2) (3 / 4)
               = Ok (RiemannInt third_quarter_integrable)).
  { unfold q, table_quad.
    destruct (Req_dec_T (3 / 4) (1 / 4)); [lra |].
    destruct (Req_dec_T (3 / 4) (1 / 2)); [lra | reflexivity]. }
  destruct (PFR_train_is_single_PFR q "1er Orden" 1 (1 / 4) (1 / 2) (3 / 4)
              _ _ _ (fun x => 1 / (1 * (1 - x))) Hs H0 H1 H2 Hg Q1 Q2 Q3
              (ex_intro _ first_quarter_integrable eq_refl)
              (ex_intro _ second_quarter_integrable eq_refl)
              (ex_intro _ third_quarter_integrable eq_refl))
    as [Hrun Hint].
  split; [exact H0 |]. split; [exact H1 |]. split; [exact H2 |].
  split; [now rewrite Hrun | exact Hint].
Defined.

(** The Langmuir-Hinshelwood curve for [k = 1] is integrable on
    [[0, 1/2]]. *)
Lemma langmuir_hinshelwood_integrable :
  Riemann_integrable
    (fun x => 1 / (1 * (1 - x) / (5 / 10 + 12 / 10 * 1 * (1 - x)) ^ 2))
    0 (1 / 2).
Proof.
  apply continuity_implies_RiemannInt; [lra |].
  intros x Hx. reg. repeat split; try nra.
  apply Rgt_not_eq, Rdiv_lt_0_compat; [nra | apply pow_lt; nra].
Qed.

Lemma langmuir_hinshelwood_CSTR_at_most_PFR_witness :
  0 < 1 /\ 0 < 1 / 2 /\ 1 / 2 < 1 /\ 5 / 12 <= 1 * (1 - 1 / 2) /\
  reactor2 (constant_quad (RiemannInt langmuir_hinshelwood_integrable))
    "Langmuir-Hinshelwood" 1 0 (1 / 2) "PFR" =
  Run [add_patch_Polygon 0 (1 / 2) "c";
       print "REACTOR2 PFR Volume=%.3g L"
         (RiemannInt langmuir_hinshelwood_integrable)]
      (Ok (RiemannInt langmuir_hinshelwood_integrable)) /\
  exists Vcstr,
    outcome (reactor2 (constant_quad (RiemannInt langmuir_hinshelwood_integrable))
               "Langmuir-Hinshelwood" 1 0 (1 / 2) "CSTR") = Ok Vcstr /\
    Vcstr <= RiemannInt langmuir_hinshelwood_integrable.
Proof.
  assert (Hk : 0 < 1) by lra.
  assert (Hlt : 0 < 1 / 2) by lra.
  assert (Hhi : 1 / 2 < 1) by lra.
  assert (Hv : 5 / 12 <= 1 * (1 - 1 / 2)) by lra.
  split; [exact Hk |]. split; [exact Hlt |]. split; [exact Hhi |].
  split; [exact Hv |].
  destruct (langmuir_hinshelwood_CSTR_at_most_PFR
              (constant_quad (RiemannInt langmuir_hinshelwood_integrable))
              1 0 (1 / 2) Hk Hlt Hhi Hv)
    as (_ & _ & Hbound).
  destruct (Hbound (RiemannInt langmuir_hinshelwood_integrable) eq_refl
              (ex_intro _ langmuir_hinshelwood_integrable eq_refl))
    as (((Hpfr & Hcstr) & _) & Hle).
  split; [exact Hpfr |].
  eexists. split; [rewrite Hcstr; reflexivity | exact Hle].
Defined.
End AreaRuns.
